(** * obj_lib: the build configurator [configure.py]

    [configure.py] is a straight-line script.  It asks the build generator
    (the [generator] module of [build/ninja], which is not part of the
    verified source) about the target platform and the toolchain and then
    declares build artifacts through [generator.lib], [generator.bin] and
    [generator.app].  The artifact plan of the script is the sequence of
    these calls, in the order they are made.

    The embedding follows the script line by line.  Calls to the generator
    are recorded in a log that is threaded through a small script monad;
    [sys.exit()] ends the script early and keeps the log. *)

From Stdlib Require Import String Ascii List Bool Arith Lia.
Import ListNotations.
Local Open Scope string_scope.
Local Open Scope list_scope.

Set Implicit Arguments.

(** ** [os.path.join] (POSIX flavour)

    [posixpath.join(a, *p)]: a component that starts with the separator
    replaces what was joined so far; an empty prefix or a prefix that ends
    with the separator takes the component unchanged; otherwise the
    separator is put in between. *)
Module PosixPath.

Definition sep : ascii := "/"%char.

Definition startswith_sep (s : string) : bool :=
  match s with
  | String c _ => Ascii.eqb c sep
  | EmptyString => false
  end.

Fixpoint endswith_sep (s : string) : bool :=
  match s with
  | EmptyString => false
  | String c EmptyString => Ascii.eqb c sep
  | String _ rest => endswith_sep rest
  end.

Definition join_step (path b : string) : string :=
  if startswith_sep b then b
  else if (path =? "") || endswith_sep path then path ++ b
  else path ++ String sep b.

Definition join (a : string) (p : list string) : string :=
  fold_left join_step p a.

End PosixPath.

(** ** Python truth value of the objects the script tests

    The script tests two kinds of objects in an [if]: the boolean a query
    method returns when it is called, and (line 66) the attribute
    [generator.is_subninja] itself, without the call.  The attribute is the
    bound method that line 31 calls; a bound method has neither [__bool__]
    nor [__len__], so its truth value is [True] whatever the method would
    return. *)
Inductive pyobject : Type :=
| PyBool (b : bool)
| PyBoundMethod (result : bool).

Definition truth (o : pyobject) : bool :=
  match o with
  | PyBool b => b
  | PyBoundMethod _ => true
  end.

(** ** The generator as the script sees it

    The generator, its target and its toolchain are taken as parameters:
    the records hold the answers of the queries the script makes. *)
Record Target : Type := mkTarget {
  is_macos : bool;
  is_ios : bool;
  is_android : bool;
  is_tizen : bool
}.

Record Toolchain : Type := mkToolchain {
  is_monolithic : bool;
  configs : list string
}.

Record Generator : Type := mkGenerator {
  target : Target;
  toolchain : Toolchain;
  is_subninja : bool;               (* the result of [generator.is_subninja()] *)
  test_includepaths : list string   (* the result of [generator.test_includepaths()] *)
}.

(** [generator.is_subninja], the attribute (no call). *)
Definition is_subninja_attr (g : Generator) : pyobject :=
  PyBoundMethod (is_subninja g).

(** ** Artifact declarations

    A declaration is a recorded generator call with the keyword arguments
    the script passes.  [generator.lib] returns a handle to the library it
    declared ([obj_lib]); the handle is modelled by the call itself.  A
    keyword the script leaves out at a call site is [None]. *)
Record LibCall : Type := mkLib {
  lib_module : string;
  lib_sources : list string
}.

Record LinkCall : Type := mkLink {
  module_ : string;
  sources : list string;
  binname : string;
  basepath : string;
  implicit_deps : list LibCall;
  libs : list string;
  resources : option (list string);
  includepaths : list string
}.

Inductive Decl : Type :=
| Lib (c : LibCall)      (* generator.lib *)
| Bin (c : LinkCall)     (* generator.bin *)
| App (c : LinkCall).    (* generator.app *)

(** ** The script monad: a log of declarations and [sys.exit()] *)
Inductive Outcome (A : Type) : Type :=
| Returned (a : A)
| Exited.                (* sys.exit() with no argument: status 0 *)
Arguments Exited {A}.

Definition Script (A : Type) : Type := list Decl -> Outcome A * list Decl.

Definition ret {A} (a : A) : Script A := fun log => (Returned a, log).

Definition bind {A B} (m : Script A) (k : A -> Script B) : Script B :=
  fun log =>
    match m log with
    | (Returned a, log') => k a log'
    | (Exited, log') => (Exited, log')
    end.

Declare Scope script_scope.
Delimit Scope script_scope with script.
Notation "x <- m ;; k" := (bind m (fun x => k))
  (at level 61, m at next level, right associativity) : script_scope.
Notation "m ;; k" := (bind m (fun _ => k))
  (at level 61, right associativity) : script_scope.
Local Open Scope script_scope.

Definition sys_exit {A} : Script A := fun log => (Exited, log).

Definition declare (d : Decl) : Script unit :=
  fun log => (Returned tt, log ++ [d]).

Definition generator_lib (module : string) (srcs : list string) : Script LibCall :=
  let c := mkLib module srcs in
  declare (Lib c) ;; ret c.

Definition generator_bin (c : LinkCall) : Script unit := declare (Bin c).
Definition generator_app (c : LinkCall) : Script unit := declare (App c).

Definition when (b : bool) (m : Script unit) : Script unit :=
  if b then m else ret tt.

(** [for x in xs: body] *)
Fixpoint for_each {A} (xs : list A) (body : A -> Script unit) : Script unit :=
  match xs with
  | [] => ret tt
  | x :: rest => body x ;; for_each rest body
  end.

(** ** The project manifest

    The script hard-wires the facts about the module it configures: the
    module name (the literal ['obj'] of lines 24 and 36), the library
    sources (line 21), the dependency libraries (line 12) and the initial
    list of test cases (line 38).  They are gathered in a record so that
    statements can range over them; [obj_manifest] holds the values the
    script has. *)
Record Manifest : Type := mkManifest {
  moduleName : string;
  librarySources : list string;
  dependencyLibraries : list string;
  testCases : list string
}.

Definition obj_manifest : Manifest :=
  {| moduleName := "obj";
     librarySources := ["obj.c"; "mesh.c"; "version.c"];
     dependencyLibraries := ["mesh"; "vector"; "foundation"];
     testCases := ["obj"] |}.

(** ** The script *)
Section Configure.

Variable m : Manifest.
Variable g : Generator.

Let tgt := target g.
Let tc := toolchain g.

(** Line 12. *)
Definition dependlibs : list string := dependencyLibraries m.

(** Lines 27-28: [configs] is bound only off the three bundle platforms. *)
Definition not_in (x : string) (xs : list string) : bool :=
  negb (existsb (String.eqb x) xs).

Definition filtered_configs : option (list string) :=
  if negb (is_ios tgt) && negb (is_android tgt) && negb (is_tizen tgt)
  then Some (filter (fun config => not_in config ["profile"; "deploy"]) (configs tc))
  else None.

(** Line 36. *)
Definition linklibs : list string := ["test"; moduleName m] ++ dependlibs.

(** Line 39. *)
Definition fat_binary : bool :=
  is_monolithic tc || is_ios tgt || is_android tgt || is_tizen tgt.

(** Lines 41-59: the resources and extra sources of the fat binary. *)
Definition fat_test_resources : list string :=
  if is_ios tgt then
    map (fun item => PosixPath.join "all" ["ios"; item])
        ["test-all.plist"; "Images.xcassets"; "test-all.xib"]
  else if is_android tgt then
    map (fun item => PosixPath.join "all" ["android"; item])
        [ "AndroidManifest.xml";
          PosixPath.join "layout" ["main.xml"];
          PosixPath.join "values" ["strings.xml"];
          PosixPath.join "drawable-ldpi" ["icon.png"];
          PosixPath.join "drawable-mdpi" ["icon.png"];
          PosixPath.join "drawable-hdpi" ["icon.png"];
          PosixPath.join "drawable-xhdpi" ["icon.png"];
          PosixPath.join "drawable-xxhdpi" ["icon.png"];
          PosixPath.join "drawable-xxxhdpi" ["icon.png"] ]
  else if is_tizen tgt then
    map (fun item => PosixPath.join "all" ["tizen"; item])
        [ "tizen-manifest.xml"; PosixPath.join "res" ["tizenapp.png"] ]
  else [].

Definition fat_test_extrasources : list string :=
  if is_ios tgt then
    [ PosixPath.join "all" ["ios"; "viewcontroller.m"] ]
  else if is_android tgt then
    map (fun item =>
           PosixPath.join "all"
             ["android"; "java"; "com"; "maniccoder"; "obj"; "test"; item])
        [ "TestActivity.java" ]
  else [].

(** Line 60. *)
Definition app_platform : bool :=
  is_macos tgt || is_ios tgt || is_android tgt || is_tizen tgt.

(** The keyword arguments of lines 61 and 63 (they are the same). *)
Definition fat_call (obj_lib : LibCall) (incs : list string) : LinkCall :=
  let test_cases := testCases m ++ ["all"] in
  {| module_ := "";
     sources := map (fun module => PosixPath.join module ["main.c"]) test_cases
                ++ fat_test_extrasources;
     binname := "test-all";
     basepath := "test";
     implicit_deps := [obj_lib];
     libs := linklibs;
     resources := Some fat_test_resources;
     includepaths := incs |}.

(** Line 67. *)
Definition all_call (obj_lib : LibCall) (incs : list string) : LinkCall :=
  {| module_ := "all";
     sources := ["main.c"];
     binname := "test-all";
     basepath := "test";
     implicit_deps := [obj_lib];
     libs := [moduleName m] ++ dependlibs;
     resources := None;
     includepaths := incs |}.

(** Lines 70-71. *)
Definition osx_test_resources (test : string) : list string :=
  map (fun item => PosixPath.join "osx" [item])
      [("test-" ++ test ++ ".plist")%string; "Images.xcassets";
       ("test-" ++ test ++ ".xib")%string].

Definition test_app_call (obj_lib : LibCall) (incs : list string) (test : string)
  : LinkCall :=
  {| module_ := test;
     sources := ["main.c"];
     binname := ("test-" ++ test)%string;
     basepath := "test";
     implicit_deps := [obj_lib];
     libs := linklibs;
     resources := Some (osx_test_resources test);
     includepaths := incs |}.

(** Line 73. *)
Definition test_bin_call (obj_lib : LibCall) (incs : list string) (test : string)
  : LinkCall :=
  {| module_ := test;
     sources := ["main.c"];
     binname := ("test-" ++ test)%string;
     basepath := "test";
     implicit_deps := [obj_lib];
     libs := linklibs;
     resources := None;
     includepaths := incs |}.

(** Lines 18-73. *)
Definition configure : Script unit :=
  let extrasources : list string := [] in
  let obj_sources := librarySources m in
  obj_lib <- generator_lib (moduleName m) (obj_sources ++ extrasources) ;;
  let configs := filtered_configs in
  (* No test cases if we're a submodule *)
  when (is_subninja g) sys_exit ;;
  let incs := test_includepaths g in
  let test_cases := testCases m in
  if fat_binary then
    (* Build one fat binary with all test cases *)
    if app_platform
    then generator_app (fat_call obj_lib incs)
    else generator_bin (fat_call obj_lib incs)
  else
    (* Build one binary per test case *)
    when (negb (truth (is_subninja_attr g)))
         (generator_bin (all_call obj_lib incs)) ;;
    for_each test_cases (fun test =>
      if is_macos tgt
      then generator_app (test_app_call obj_lib incs test)
      else generator_bin (test_bin_call obj_lib incs test)).

End Configure.

(** Running the script on a fresh generator: the outcome and the plan. *)
Definition run (m : Manifest) (g : Generator) : Outcome unit * list Decl :=
  configure m g [].

Definition plan (m : Manifest) (g : Generator) : list Decl := snd (run m g).

(** ** Platform kinds *)

(** Modelled from the spec: the platform object behind [generator.target]
    ([build/ninja/platform.py]) is not part of the verified source.  The
    spec names five platform kinds; [Other] stands for any kind outside
    that set.  Each query of the script answers [True] on its own platform
    only, so a kind the script has no query for answers [False] to all
    four. *)
Inductive platformKind : Type :=
| GenericDesktop
| MacOSApp
| IOS
| Android
| Tizen
| Other (name : string).

Definition target_for (k : platformKind) : Target :=
  match k with
  | GenericDesktop => mkTarget false false false false
  | MacOSApp => mkTarget true false false false
  | IOS => mkTarget false true false false
  | Android => mkTarget false false true false
  | Tizen => mkTarget false false false true
  | Other _ => mkTarget false false false false
  end.

Definition generator_for (k : platformKind) (monolithic : bool)
    (cfgs : list string) (subninja : bool) (incs : list string) : Generator :=
  mkGenerator (target_for k) (mkToolchain monolithic cfgs) subninja incs.

(** ** Reading a plan *)

Definition is_library (d : Decl) : bool :=
  match d with Lib _ => true | _ => false end.

Definition is_app (d : Decl) : bool :=
  match d with App _ => true | _ => false end.

Definition is_bin (d : Decl) : bool :=
  match d with Bin _ => true | _ => false end.

Definition non_library (ds : list Decl) : list Decl :=
  filter (fun d => negb (is_library d)) ds.

(** The resource list of a test artifact; a call without the [resources]
    keyword carries none. *)
Definition resource_list (c : LinkCall) : list string :=
  match resources c with
  | Some rs => rs
  | None => []
  end.

(** A property of the keyword arguments of every [bin] and [app] call. *)
Definition on_link_call (P : LinkCall -> Prop) (d : Decl) : Prop :=
  match d with
  | Lib _ => True
  | Bin c | App c => P c
  end.

(** The entry point of a test case in the fat binary (lines 61 and 63). *)
Definition entry_point (module : string) : string :=
  PosixPath.join module ["main.c"].

(** The library declaration of line 24. *)
Definition obj_lib (m : Manifest) : LibCall :=
  mkLib (moduleName m) (librarySources m).

(** The declarations that follow the library when the script runs to its
    end. *)
Definition fat_decl (m : Manifest) (g : Generator) : Decl :=
  let c := fat_call m g (obj_lib m) (test_includepaths g) in
  if app_platform g then App c else Bin c.

Definition test_decl (m : Manifest) (g : Generator) (test : string) : Decl :=
  if is_macos (target g)
  then App (test_app_call m (obj_lib m) (test_includepaths g) test)
  else Bin (test_bin_call m (obj_lib m) (test_includepaths g) test).

Definition test_decls (m : Manifest) (g : Generator) : list Decl :=
  if fat_binary g then [fat_decl m g] else map (test_decl m g) (testCases m).

(** "Planning is rejected": the script does not run to its end and nothing
    was declared. *)
Definition rejected (r : Outcome unit * list Decl) : Prop :=
  fst r <> Returned tt /\ snd r = [].

(** ** Inputs used in examples *)

Definition all_configs : list string := ["debug"; "release"; "profile"; "deploy"].

Definition with_cases (cases : list string) : Manifest :=
  {| moduleName := moduleName obj_manifest;
     librarySources := librarySources obj_manifest;
     dependencyLibraries := dependencyLibraries obj_manifest;
     testCases := cases |}.

Definition desktop_per_artifact : Generator :=
  generator_for GenericDesktop false all_configs false ["test"].

Definition desktop_monolithic : Generator :=
  generator_for GenericDesktop true all_configs false ["test"].

Definition macos_per_artifact : Generator :=
  generator_for MacOSApp false all_configs false ["test"].

Definition macos_monolithic : Generator :=
  generator_for MacOSApp true all_configs false ["test"].

Definition ios_per_artifact : Generator :=
  generator_for IOS false all_configs false ["test"].

Definition tizen_submodule : Generator :=
  generator_for Tizen false all_configs true ["test"].

Definition haiku_per_artifact : Generator :=
  generator_for (Other "haiku") false all_configs false ["test"].

(** ** Two sentences of the specification, in its own words

    The specification states the monolithic merge over the test cases of
    the manifest alone, and promises a resource set to every macOS
    bundle.  Both are written down as the specification has them, to be
    compared with what the script declares. *)

Definition link_call (d : Decl) : option LinkCall :=
  match d with
  | Lib _ => None
  | Bin c | App c => Some c
  end.

Definition monolithic_merge_as_stated (m : Manifest) (g : Generator) : Prop :=
  exists d c,
    non_library (plan m g) = [d] /\ link_call d = Some c /\
    sources c = map entry_point (testCases m) ++ fat_test_extrasources g /\
    resource_list c = fat_test_resources g.

Definition macos_bundle_as_stated (d : Decl) : Prop :=
  match d with
  | Lib _ => True
  | Bin _ => False
  | App c => resource_list c <> []
  end.

(** ** Reading the test artifacts of a plan *)

(** The keyword arguments of the [bin] and [app] calls of a plan, in the
    order of the calls. *)
Definition link_calls (ds : list Decl) : list LinkCall :=
  flat_map (fun d => match link_call d with Some c => [c] | None => [] end) ds.

(** The call of the loop body (lines 69-73) for one test case. *)
Definition test_call (m : Manifest) (g : Generator) (test : string) : LinkCall :=
  if is_macos (target g)
  then test_app_call m (obj_lib m) (test_includepaths g) test
  else test_bin_call m (obj_lib m) (test_includepaths g) test.

(** A directory name that [os.path.join] extends with a separator: not
    empty and not ending in one. *)
Definition plain_name (s : string) : bool :=
  negb ((s =? "") || PosixPath.endswith_sep s).

(** The three platforms that force the fat binary (line 39). *)
Definition bundle_only (t : Target) : bool :=
  is_ios t || is_android t || is_tizen t.

Definition android_monolithic : Generator :=
  generator_for Android true all_configs false ["test"].

(** The last character of a string ([zero] for the empty string). *)
Fixpoint last_ascii (s : string) : ascii :=
  match s with
  | EmptyString => Ascii.zero
  | String c EmptyString => c
  | String _ rest => last_ascii rest
  end.

(** * Running the script *)

Lemma for_each_declare {A} (f : A -> Decl) (xs : list A) :
  forall log, for_each xs (fun x => declare (f x)) log = (Returned tt, log ++ map f xs).
Proof.
  induction xs as [|x rest IH]; intros log; simpl.
  - unfold ret. now rewrite app_nil_r.
  - unfold bind, declare at 1. rewrite IH, <- app_assoc. reflexivity.
Qed.

Lemma for_each_ext {A} (body body' : A -> Script unit) (xs : list A) :
  (forall x log, body x log = body' x log) ->
  forall log, for_each xs body log = for_each xs body' log.
Proof.
  intros E. induction xs as [|x rest IH]; intros log; simpl; [reflexivity|].
  unfold bind. rewrite E. destruct (body' x log) as [[[]|] log']; auto.
Qed.

Lemma test_loop m g :
  forall log,
    for_each (testCases m)
      (fun test =>
         if is_macos (target g)
         then generator_app (test_app_call m (obj_lib m) (test_includepaths g) test)
         else generator_bin (test_bin_call m (obj_lib m) (test_includepaths g) test))
      log
    = (Returned tt, log ++ map (test_decl m g) (testCases m)).
Proof.
  intros log. rewrite <- for_each_declare. apply for_each_ext.
  intros x l. unfold test_decl, generator_app, generator_bin.
  now destruct (is_macos (target g)).
Qed.

(** The script declares the library, stops there for a submodule and
    otherwise goes on with the test declarations. *)
Lemma configure_log m g log :
  configure m g log =
  (if is_subninja g then Exited else Returned tt,
   log ++ Lib (obj_lib m) :: (if is_subninja g then [] else test_decls m g)).
Proof.
  unfold configure, generator_lib, when.
  rewrite app_nil_r. fold (obj_lib m).
  replace (log ++ Lib (obj_lib m) :: (if is_subninja g then [] else test_decls m g))
    with ((log ++ [Lib (obj_lib m)]) ++ (if is_subninja g then [] else test_decls m g))
    by (now rewrite <- app_assoc).
  unfold bind at 1. unfold bind at 1. unfold declare at 1. unfold ret at 1.
  destruct (is_subninja g).
  - unfold bind, sys_exit. now rewrite app_nil_r.
  - unfold bind at 1. unfold ret at 1. unfold test_decls.
    destruct (fat_binary g).
    + unfold fat_decl, generator_app, generator_bin, declare.
      now destruct (app_platform g).
    + unfold is_subninja_attr, truth, negb, bind at 1, ret at 1.
      apply test_loop.
Qed.

Lemma run_eq m g :
  run m g =
  (if is_subninja g then Exited else Returned tt,
   Lib (obj_lib m) :: (if is_subninja g then [] else test_decls m g)).
Proof. unfold run. now rewrite configure_log. Qed.

Lemma plan_eq m g :
  plan m g = Lib (obj_lib m) :: (if is_subninja g then [] else test_decls m g).
Proof. unfold plan. now rewrite run_eq. Qed.

Lemma Forall_test_decls (P : Decl -> Prop) m g :
  P (fat_decl m g) -> (forall test, P (test_decl m g test)) ->
  Forall P (test_decls m g).
Proof.
  intros Hfat Htest. unfold test_decls. destruct (fat_binary g).
  - now constructor.
  - apply Forall_forall. intros d Hd. apply in_map_iff in Hd.
    destruct Hd as [t [<- _]]. apply Htest.
Qed.

Lemma Forall_plan (P : Decl -> Prop) m g :
  P (Lib (obj_lib m)) -> P (fat_decl m g) -> (forall test, P (test_decl m g test)) ->
  Forall P (plan m g).
Proof.
  intros Hlib Hfat Htest. rewrite plan_eq. constructor; [exact Hlib|].
  destruct (is_subninja g); [constructor | now apply Forall_test_decls].
Qed.

(** ** Strings *)

Lemma length_append (s x : string) :
  String.length (s ++ x) = String.length s + String.length x.
Proof. induction s as [|a s IH]; simpl; [reflexivity | now rewrite IH]. Qed.

Lemma append_cancel_r (x : string) :
  forall s1 s2 : string, (s1 ++ x = s2 ++ x)%string -> s1 = s2.
Proof.
  induction s1 as [|a s1 IH]; destruct s2 as [|b s2]; simpl; intros H.
  - reflexivity.
  - apply (f_equal String.length) in H. simpl in H. rewrite length_append in H. lia.
  - apply (f_equal String.length) in H. simpl in H. rewrite length_append in H. lia.
  - injection H as -> H. f_equal. now apply IH.
Qed.

Lemma osx_test_resources_eq (test : string) :
  osx_test_resources test =
  [ ("osx/test-" ++ test ++ ".plist")%string;
    "osx/Images.xcassets";
    ("osx/test-" ++ test ++ ".xib")%string ].
Proof. reflexivity. Qed.

Lemma osx_test_resources_inj (t1 t2 : string) :
  osx_test_resources t1 = osx_test_resources t2 -> t1 = t2.
Proof.
  rewrite !osx_test_resources_eq. intros H.
  injection H as H _. simpl in H. now apply append_cancel_r in H.
Qed.

(** ** The script on its own manifest *)

Example plan_ios :
  run obj_manifest ios_per_artifact
  = (Returned tt,
     [ Lib {| lib_module := "obj"; lib_sources := ["obj.c"; "mesh.c"; "version.c"] |};
       App {| module_ := "";
              sources := ["obj/main.c"; "all/main.c"; "all/ios/viewcontroller.m"];
              binname := "test-all";
              basepath := "test";
              implicit_deps := [obj_lib obj_manifest];
              libs := ["test"; "obj"; "mesh"; "vector"; "foundation"];
              resources := Some [ "all/ios/test-all.plist";
                                  "all/ios/Images.xcassets";
                                  "all/ios/test-all.xib" ];
              includepaths := ["test"] |} ]).
Proof. reflexivity. Qed.

Example plan_desktop_monolithic :
  run obj_manifest desktop_monolithic
  = (Returned tt,
     [ Lib {| lib_module := "obj"; lib_sources := ["obj.c"; "mesh.c"; "version.c"] |};
       Bin {| module_ := "";
              sources := ["obj/main.c"; "all/main.c"];
              binname := "test-all";
              basepath := "test";
              implicit_deps := [obj_lib obj_manifest];
              libs := ["test"; "obj"; "mesh"; "vector"; "foundation"];
              resources := Some [];
              includepaths := ["test"] |} ]).
Proof. reflexivity. Qed.

Example plan_macos_monolithic :
  run obj_manifest macos_monolithic
  = (Returned tt,
     [ Lib {| lib_module := "obj"; lib_sources := ["obj.c"; "mesh.c"; "version.c"] |};
       App {| module_ := "";
              sources := ["obj/main.c"; "all/main.c"];
              binname := "test-all";
              basepath := "test";
              implicit_deps := [obj_lib obj_manifest];
              libs := ["test"; "obj"; "mesh"; "vector"; "foundation"];
              resources := Some [];
              includepaths := ["test"] |} ]).
Proof. reflexivity. Qed.

Example android_assets :
  let g := generator_for Android false all_configs false ["test"] in
  fat_test_resources g
  = [ "all/android/AndroidManifest.xml";
      "all/android/layout/main.xml";
      "all/android/values/strings.xml";
      "all/android/drawable-ldpi/icon.png";
      "all/android/drawable-mdpi/icon.png";
      "all/android/drawable-hdpi/icon.png";
      "all/android/drawable-xhdpi/icon.png";
      "all/android/drawable-xxhdpi/icon.png";
      "all/android/drawable-xxxhdpi/icon.png" ]
  /\ fat_test_extrasources g
     = [ "all/android/java/com/maniccoder/obj/test/TestActivity.java" ].
Proof. split; reflexivity. Qed.

Example tizen_assets :
  let g := generator_for Tizen false all_configs false ["test"] in
  fat_test_resources g = [ "all/tizen/tizen-manifest.xml"; "all/tizen/res/tizenapp.png" ]
  /\ fat_test_extrasources g = [].
Proof. split; reflexivity. Qed.

(** Lines 27-28 do compute a value from the toolchain's configurations. *)
Example configs_binding :
  filtered_configs desktop_per_artifact = Some ["debug"; "release"]
  /\ filtered_configs ios_per_artifact = None.
Proof. split; reflexivity. Qed.

(** The test of line 66 fails whatever [generator.is_subninja()] would
    answer, so the call of line 67 is dead. *)
Lemma line_66_never_taken g : negb (truth (is_subninja_attr g)) = false.
Proof. reflexivity. Qed.

(** Had line 67 been reached, its link list would lack ['test']. *)
Lemma all_call_link_list m l incs : libs (all_call m l incs) <> linklibs m.
Proof.
  unfold all_call, linklibs. simpl. intros H.
  apply (f_equal (@List.length string)) in H. simpl in H. lia.
Qed.

(** * The claims *)

(** C1 (link order).  In every plan, whatever the platform and the
    toolchain answer, each declared [bin] and [app] links
    ['test'], the module name and then the dependency libraries, in this
    order; for the manifest of the script that is
    [test, obj, mesh, vector, foundation].  The one call site with a
    shorter list, line 67, sits behind the test of line 66 and is never
    reached. *)
Theorem C1_link_order :
  (forall m g,
      Forall (on_link_call
                (fun c => libs c = ["test"; moduleName m] ++ dependencyLibraries m))
             (plan m g))
  /\ (forall g,
         Forall (on_link_call
                   (fun c => libs c = ["test"; "obj"; "mesh"; "vector"; "foundation"]))
                (plan obj_manifest g)).
Proof.
  assert (G : forall m g,
             Forall (on_link_call
                       (fun c => libs c = ["test"; moduleName m] ++ dependencyLibraries m))
                    (plan m g)).
  { intros m g. apply Forall_plan.
    - exact I.
    - unfold fat_decl. destruct (app_platform g); reflexivity.
    - intros test. unfold test_decl. destruct (is_macos (target g)); reflexivity. }
  split; [exact G | intros g; exact (G obj_manifest g)].
Qed.

(** C5 (submodule).  When [generator.is_subninja()] answers true the
    script exits right after the library declaration: the plan is exactly
    the library built from the library sources, on every platform and with
    every toolchain, and the exit is the normal one. *)
Theorem C5_submodule_only_library :
  forall m g,
    is_subninja g = true ->
    run m g = (Exited, [Lib {| lib_module := moduleName m;
                               lib_sources := librarySources m |}])
    /\ non_library (plan m g) = [].
Proof.
  intros m g Hsub. unfold plan. rewrite run_eq, Hsub. split; reflexivity.
Qed.

Lemma C5_submodule_only_library_witness :
  is_subninja tizen_submodule = true
  /\ run obj_manifest tizen_submodule
     = (Exited, [Lib {| lib_module := "obj";
                        lib_sources := ["obj.c"; "mesh.c"; "version.c"] |}])
  /\ non_library (plan obj_manifest tizen_submodule) = [].
Proof.
  split; [reflexivity|].
  apply (C5_submodule_only_library obj_manifest tizen_submodule). reflexivity.
Defined.

(** C8 (library first).  Every plan starts with the library declaration,
    no later declaration is a library, and every later declaration lists
    that library among its implicit dependencies. *)
Theorem C8_library_first :
  forall m g,
  exists rest,
    plan m g = Lib (obj_lib m) :: rest
    /\ Forall (fun d => is_library d = false
                        /\ on_link_call (fun c => In (obj_lib m) (implicit_deps c)) d)
              rest.
Proof.
  intros m g. rewrite plan_eq. eexists. split; [reflexivity|].
  destruct (is_subninja g); [constructor|].
  apply Forall_test_decls.
  - unfold fat_decl. destruct (app_platform g); simpl; auto.
  - intros test. unfold test_decl. destruct (is_macos (target g)); simpl; auto.
Qed.

(** C9 (determinism).  The outcome of the script and the declarations it
    adds are determined by the manifest and the generator's answers alone:
    whatever the generator had recorded before, every run ends the same
    way and appends the same sequence. *)
Theorem C9_deterministic :
  forall m g,
  exists outcome decls,
    forall log, configure m g log = (outcome, log ++ decls).
Proof.
  intros m g. do 2 eexists. intros log. apply configure_log.
Qed.

(** C10 (configurations).  The list of configurations of the toolchain
    reaches only the unused binding [configs] of lines 27-28: two
    generators that differ in that list alone get the same outcome and the
    same plan. *)
Theorem C10_configs_unused :
  forall m tgt monolithic subninja incs cfgs1 cfgs2 log,
    configure m (mkGenerator tgt (mkToolchain monolithic cfgs1) subninja incs) log
    = configure m (mkGenerator tgt (mkToolchain monolithic cfgs2) subninja incs) log.
Proof.
  intros m tgt monolithic subninja incs cfgs1 cfgs2 log.
  rewrite !configure_log. reflexivity.
Qed.

(** C2 (per-artifact split on a desktop).  With a toolchain that is not
    monolithic and a generic desktop target the script of a stand-alone
    build declares the library and one plain binary per test case, each
    from its own [main.c] and without resources, and nothing else: the
    combined [test-all] binary of line 67 is not declared, because the
    test of line 66 looks at the method object and not at its result.  For
    the script's own manifest the plan has two entries; for two test cases
    it has three. *)
Theorem C2_per_artifact_desktop_omits_all :
  plan obj_manifest desktop_per_artifact
  = [ Lib {| lib_module := "obj"; lib_sources := ["obj.c"; "mesh.c"; "version.c"] |};
      Bin {| module_ := "obj";
             sources := ["main.c"];
             binname := "test-obj";
             basepath := "test";
             implicit_deps :=
               [{| lib_module := "obj";
                   lib_sources := ["obj.c"; "mesh.c"; "version.c"] |}];
             libs := ["test"; "obj"; "mesh"; "vector"; "foundation"];
             resources := None;
             includepaths := ["test"] |} ]
  /\ (forall A B,
         let m := with_cases [A; B] in
         let incs := test_includepaths desktop_per_artifact in
         plan m desktop_per_artifact
         = [ Lib (obj_lib m);
             Bin (test_bin_call m (obj_lib m) incs A);
             Bin (test_bin_call m (obj_lib m) incs B) ]
         /\ ~ In (Bin (all_call m (obj_lib m) incs)) (plan m desktop_per_artifact)
         /\ Forall (on_link_call (fun c => resource_list c = []))
                   (plan m desktop_per_artifact)).
Proof.
  split; [reflexivity|].
  intros A B m incs.
  assert (E : plan m desktop_per_artifact
              = [ Lib (obj_lib m);
                  Bin (test_bin_call m (obj_lib m) incs A);
                  Bin (test_bin_call m (obj_lib m) incs B) ])
    by (rewrite plan_eq; reflexivity).
  rewrite E. repeat split.
  - intros [H|[H|[H|[]]]]; discriminate H.
  - repeat constructor.
Qed.

(** C3, as the specification states it, fails: with the test cases A and B
    the fat binary of a monolithic desktop build is made of three entry
    points, not two. *)
Lemma C3_counterexample :
  ~ monolithic_merge_as_stated (with_cases ["A"; "B"]) desktop_monolithic.
Proof.
  intros [d [c [Hd [Hc [Hsrc _]]]]].
  vm_compute in Hd. injection Hd as <-.
  injection Hc as <-. vm_compute in Hsrc. discriminate Hsrc.
Qed.

(** C3 (monolithic merge), amended.  In a stand-alone build that takes the
    fat-binary branch (a monolithic toolchain, or iOS, Android or Tizen)
    exactly one test artifact is declared.  Its sources are the entry
    points of the manifest's test cases in their order, then the entry
    point of the reserved case [all], then the extra sources of the
    platform; its resources are one copy of the resource set that lines
    41-59 select for the platform. *)
Theorem C3_monolithic_merge :
  forall m g,
    is_subninja g = false ->
    fat_binary g = true ->
    exists d c,
      non_library (plan m g) = [d] /\ link_call d = Some c /\
      sources c = map entry_point (testCases m) ++ [entry_point "all"]
                  ++ fat_test_extrasources g /\
      resources c = Some (fat_test_resources g).
Proof.
  intros m g Hsub Hfat. rewrite plan_eq, Hsub. unfold test_decls. rewrite Hfat.
  exists (fat_decl m g), (fat_call m g (obj_lib m) (test_includepaths g)).
  unfold fat_decl. destruct (app_platform g); simpl; repeat split;
    unfold entry_point; now rewrite map_app, <- app_assoc.
Qed.

Lemma C3_monolithic_merge_witness :
  is_subninja desktop_monolithic = false
  /\ fat_binary desktop_monolithic = true
  /\ exists d c,
      non_library (plan (with_cases ["A"; "B"]) desktop_monolithic) = [d]
      /\ link_call d = Some c
      /\ sources c = map entry_point ["A"; "B"] ++ [entry_point "all"]
                     ++ fat_test_extrasources desktop_monolithic
      /\ resources c = Some (fat_test_resources desktop_monolithic).
Proof.
  split; [reflexivity|]. split; [reflexivity|].
  apply (C3_monolithic_merge (with_cases ["A"; "B"]) desktop_monolithic); reflexivity.
Defined.

(** C4 (bundle platforms).  On iOS, Android and Tizen a stand-alone build
    declares, after the library, exactly one artifact: the application
    bundle [test-all], whose sources hold the entry point of every test
    case.  The toolchain's own answer about monolithic builds plays no
    part. *)
Theorem C4_bundle_platform_forcing :
  forall m g,
    is_subninja g = false ->
    is_ios (target g) || is_android (target g) || is_tizen (target g) = true ->
    exists c,
      plan m g = [Lib (obj_lib m); App c]
      /\ binname c = "test-all"
      /\ incl (map entry_point (testCases m)) (sources c).
Proof.
  intros m g Hsub Hp.
  assert (Hfat : fat_binary g = true).
  { unfold fat_binary. destruct (is_monolithic (toolchain g)); [reflexivity | exact Hp]. }
  assert (Happ : app_platform g = true).
  { unfold app_platform. destruct (is_macos (target g)); [reflexivity | exact Hp]. }
  rewrite plan_eq, Hsub. unfold test_decls. rewrite Hfat.
  unfold fat_decl. rewrite Happ. eexists. split; [reflexivity|]. split; [reflexivity|].
  simpl. unfold entry_point. rewrite map_app.
  intros s Hs. apply in_or_app. left. apply in_or_app. now left.
Qed.

Lemma C4_bundle_platform_forcing_witness :
  is_subninja ios_per_artifact = false
  /\ is_ios (target ios_per_artifact) || is_android (target ios_per_artifact)
     || is_tizen (target ios_per_artifact) = true
  /\ is_monolithic (toolchain ios_per_artifact) = false
  /\ exists c,
      plan obj_manifest ios_per_artifact = [Lib (obj_lib obj_manifest); App c]
      /\ binname c = "test-all"
      /\ incl (map entry_point (testCases obj_manifest)) (sources c).
Proof.
  split; [reflexivity|]. split; [reflexivity|]. split; [reflexivity|].
  apply (C4_bundle_platform_forcing obj_manifest ios_per_artifact); reflexivity.
Defined.

(** C6, as the specification states it, fails: the macOS bundle of a
    monolithic build carries an empty resource list. *)
Lemma C6_counterexample :
  is_macos (target macos_monolithic) = true
  /\ ~ Forall macos_bundle_as_stated (plan obj_manifest macos_monolithic).
Proof.
  split; [reflexivity|]. intros H.
  inversion H as [|d1 r1 _ H1]; subst.
  inversion H1 as [|d2 r2 Hd2 _]; subst.
  apply Hd2. reflexivity.
Qed.

(** C6 (macOS bundles), amended.  On macOS no test artifact is a plain
    binary: each one is an application bundle.  In a stand-alone build
    that does not take the fat-binary branch there is one bundle per test
    case, and the bundle of test case [t] carries the three resources
    [osx/test-t.plist], [osx/Images.xcassets] and [osx/test-t.xib]; the
    resource lists of different test cases differ. *)
Theorem C6_macos_bundles :
  forall m g,
    is_macos (target g) = true ->
    Forall (fun d => is_bin d = false) (plan m g)
    /\ (is_subninja g = false -> fat_binary g = false ->
        non_library (plan m g)
        = map (fun t => App (test_app_call m (obj_lib m) (test_includepaths g) t))
              (testCases m)
        /\ (forall t,
               resources (test_app_call m (obj_lib m) (test_includepaths g) t)
               = Some [ ("osx/test-" ++ t ++ ".plist")%string;
                        "osx/Images.xcassets";
                        ("osx/test-" ++ t ++ ".xib")%string ])
        /\ (forall t1 t2,
               resources (test_app_call m (obj_lib m) (test_includepaths g) t1)
               = resources (test_app_call m (obj_lib m) (test_includepaths g) t2)
               -> t1 = t2)).
Proof.
  intros m g Hmac. split.
  - apply Forall_plan.
    + reflexivity.
    + unfold fat_decl, app_platform. now rewrite Hmac.
    + intros test. unfold test_decl. now rewrite Hmac.
  - intros Hsub Hfat. rewrite plan_eq, Hsub. unfold test_decls. rewrite Hfat.
    repeat split.
    + simpl. unfold test_decl. rewrite Hmac.
      induction (testCases m) as [|t rest IH]; simpl; [reflexivity | f_equal; exact IH].
    + intros t1 t2 H. apply osx_test_resources_inj.
      change (Some (osx_test_resources t1) = Some (osx_test_resources t2)) in H.
      congruence.
Qed.

Lemma C6_macos_bundles_witness :
  is_macos (target macos_per_artifact) = true
  /\ is_subninja macos_per_artifact = false
  /\ fat_binary macos_per_artifact = false
  /\ Forall (fun d => is_bin d = false) (plan obj_manifest macos_per_artifact)
  /\ non_library (plan obj_manifest macos_per_artifact)
     = [ App {| module_ := "obj";
                sources := ["main.c"];
                binname := "test-obj";
                basepath := "test";
                implicit_deps := [obj_lib obj_manifest];
                libs := ["test"; "obj"; "mesh"; "vector"; "foundation"];
                resources := Some [ "osx/test-obj.plist";
                                    "osx/Images.xcassets";
                                    "osx/test-obj.xib" ];
                includepaths := ["test"] |} ].
Proof.
  split; [reflexivity|]. split; [reflexivity|]. split; [reflexivity|].
  destruct (C6_macos_bundles obj_manifest macos_per_artifact eq_refl) as [Hall Hper].
  split; [exact Hall|].
  destruct (Hper eq_refl eq_refl) as [Hplan _].
  exact Hplan.
Defined.

(** C7, as the specification states it, fails: for a platform kind outside
    the five the specification names, the script runs to its end and
    declares the library and a plain binary. *)
Lemma C7_counterexample :
  ~ rejected (run obj_manifest haiku_per_artifact)
  /\ run obj_manifest haiku_per_artifact
     = (Returned tt,
        [ Lib {| lib_module := "obj";
                 lib_sources := ["obj.c"; "mesh.c"; "version.c"] |};
          Bin {| module_ := "obj";
                 sources := ["main.c"];
                 binname := "test-obj";
                 basepath := "test";
                 implicit_deps :=
                   [{| lib_module := "obj";
                       lib_sources := ["obj.c"; "mesh.c"; "version.c"] |}];
                 libs := ["test"; "obj"; "mesh"; "vector"; "foundation"];
                 resources := None;
                 includepaths := ["test"] |} ]).
Proof.
  split; [|reflexivity].
  intros [_ H]. discriminate H.
Qed.

(** C7 (unrecognised platform), amended.  The script has no way to reject
    a platform: a kind outside the recognised ones is planned exactly as
    the generic desktop is.  The plan is never empty, and in a stand-alone
    build the script runs to its end and declares plain binaries only. *)
Theorem C7_unrecognised_platform_defaults :
  forall name m monolithic cfgs subninja incs,
    let g := generator_for (Other name) monolithic cfgs subninja incs in
    ~ rejected (run m g)
    /\ run m g = run m (generator_for GenericDesktop monolithic cfgs subninja incs)
    /\ fst (run m g) = (if subninja then Exited else Returned tt)
    /\ Forall (fun d => is_app d = false) (plan m g).
Proof.
  intros name m monolithic cfgs subninja incs g. repeat split.
  - intros [_ H]. unfold run in H. rewrite configure_log in H. discriminate H.
  - rewrite run_eq. reflexivity.
  - apply Forall_plan.
    + reflexivity.
    + reflexivity.
    + intros test. reflexivity.
Qed.

(** * Further properties of the script *)

(** ** The test artifacts of a plan *)

Lemma link_calls_test_decls m g (ts : list string) :
  link_calls (map (test_decl m g) ts) = map (test_call m g) ts.
Proof.
  unfold test_decl, test_call.
  induction ts as [|t rest IH]; [reflexivity|].
  cbn [map]. unfold link_calls in *. cbn [flat_map]. rewrite IH.
  now destruct (is_macos (target g)).
Qed.

Lemma link_calls_plan m g :
  link_calls (plan m g) =
  if is_subninja g then []
  else if fat_binary g then [fat_call m g (obj_lib m) (test_includepaths g)]
       else map (test_call m g) (testCases m).
Proof.
  rewrite plan_eq. destruct (is_subninja g); [reflexivity|].
  change (link_calls (Lib (obj_lib m) :: test_decls m g))
    with (link_calls (test_decls m g)).
  unfold test_decls. destruct (fat_binary g).
  - unfold fat_decl. now destruct (app_platform g).
  - apply link_calls_test_decls.
Qed.

Lemma fat_binary_false g :
  fat_binary g = false ->
  is_monolithic (toolchain g) = false /\ bundle_only (target g) = false.
Proof.
  unfold fat_binary, bundle_only.
  destruct (is_monolithic (toolchain g)), (is_ios (target g)),
    (is_android (target g)), (is_tizen (target g)); simpl; intros H;
    try discriminate H; now split.
Qed.

(** X1.  Every [bin] and [app] call of a plan is made relative to the
    base path ['test'] and searches exactly the include paths
    [generator.test_includepaths()] returned, passed on unchanged. *)
Theorem X1_includepaths_passed_through :
  forall m g,
    Forall (fun c => includepaths c = test_includepaths g /\ basepath c = "test")
           (link_calls (plan m g)).
Proof.
  intros m g. rewrite link_calls_plan.
  destruct (is_subninja g); [constructor|].
  destruct (fat_binary g).
  - constructor; [now split | constructor].
  - apply Forall_forall. intros c Hc. apply in_map_iff in Hc.
    destruct Hc as [t [<- _]]. unfold test_call.
    now destruct (is_macos (target g)).
Qed.

(** X2.  In a stand-alone build that does not take the fat-binary branch
    there is exactly one test artifact per test case, in the order of the
    test cases: the artifact of case [t] has module [t], binary name
    [test-t] and the single source [main.c]. *)
Theorem X2_one_artifact_per_test_case :
  forall m g,
    is_subninja g = false ->
    fat_binary g = false ->
    map (@module_) (link_calls (plan m g)) = testCases m
    /\ map (@binname) (link_calls (plan m g))
       = map (fun t => ("test-" ++ t)%string) (testCases m)
    /\ Forall (fun c => sources c = ["main.c"]) (link_calls (plan m g)).
Proof.
  intros m g Hsub Hfat. rewrite link_calls_plan, Hsub, Hfat.
  rewrite !map_map. repeat split.
  - unfold test_call. destruct (is_macos (target g)); apply map_id.
  - unfold test_call. now destruct (is_macos (target g)).
  - apply Forall_forall. intros c Hc. apply in_map_iff in Hc.
    destruct Hc as [t [<- _]]. unfold test_call.
    now destruct (is_macos (target g)).
Qed.

Lemma X2_one_artifact_per_test_case_witness :
  is_subninja macos_per_artifact = false
  /\ fat_binary macos_per_artifact = false
  /\ map (@module_) (link_calls (plan (with_cases ["obj"; "mesh"]) macos_per_artifact))
     = ["obj"; "mesh"]
  /\ map (@binname) (link_calls (plan (with_cases ["obj"; "mesh"]) macos_per_artifact))
     = ["test-obj"; "test-mesh"]
  /\ Forall (fun c => sources c = ["main.c"])
            (link_calls (plan (with_cases ["obj"; "mesh"]) macos_per_artifact)).
Proof.
  split; [reflexivity|]. split; [reflexivity|].
  apply (X2_one_artifact_per_test_case (with_cases ["obj"; "mesh"]) macos_per_artifact);
    reflexivity.
Defined.

(** X3.  The kind of the test artifacts is the same throughout a plan and
    follows the platform alone: all of them are application bundles when
    the target is macOS, iOS, Android or Tizen, and all of them are plain
    binaries otherwise, in the fat-binary branch and in the per-test
    branch alike. *)
Theorem X3_kind_follows_platform :
  forall m g,
    Forall (fun d => is_app d = app_platform g /\ is_bin d = negb (app_platform g))
           (non_library (plan m g)).
Proof.
  intros m g. rewrite plan_eq.
  change (non_library (Lib (obj_lib m) :: (if is_subninja g then [] else test_decls m g)))
    with (non_library (if is_subninja g then [] else test_decls m g)).
  destruct (is_subninja g); [constructor|].
  unfold test_decls. destruct (fat_binary g) eqn:Hfat.
  - unfold fat_decl. destruct (app_platform g) eqn:Happ; simpl;
      rewrite ?Happ; repeat constructor.
  - apply fat_binary_false in Hfat. destruct Hfat as [_ Hb].
    assert (Happ : app_platform g = is_macos (target g)).
    { unfold app_platform. unfold bundle_only in Hb.
      destruct (is_macos (target g)), (is_ios (target g)),
        (is_android (target g)), (is_tizen (target g)); simpl in *;
        try discriminate Hb; reflexivity. }
    rewrite Happ. apply Forall_forall. intros d Hd.
    unfold non_library in Hd. apply filter_In in Hd. destruct Hd as [Hd _].
    apply in_map_iff in Hd. destruct Hd as [t [<- _]].
    unfold test_decl. now destruct (is_macos (target g)).
Qed.

(** X4.  A plain binary never carries resources: whatever the platform and
    the branch, the resource list of every declared [bin] is empty. *)
Theorem X4_plain_binary_without_resources :
  forall m g,
    Forall (fun d => match d with Bin c => resource_list c = [] | _ => True end)
           (plan m g).
Proof.
  intros m g. apply Forall_plan.
  - exact I.
  - unfold fat_decl. destruct (app_platform g) eqn:Happ; [exact I|].
    unfold resource_list, fat_call, fat_test_resources. cbn [resources].
    unfold app_platform in Happ.
    destruct (is_macos (target g)), (is_ios (target g)),
      (is_android (target g)), (is_tizen (target g)); simpl in Happ;
      try discriminate Happ; reflexivity.
  - intros test. unfold test_decl. now destruct (is_macos (target g)).
Qed.

(** X5.  With an empty list of test cases a stand-alone build still
    declares the fat binary, made of the entry point of the reserved case
    [all] and the platform's extra sources, whereas the per-test branch
    declares no test artifact at all. *)
Theorem X5_no_test_cases :
  forall m g,
    testCases m = [] ->
    is_subninja g = false ->
    map (@sources) (link_calls (plan m g))
    = if fat_binary g then ["all/main.c" :: fat_test_extrasources g] else [].
Proof.
  intros m g Hcases Hsub. rewrite link_calls_plan, Hsub.
  destruct (fat_binary g).
  - unfold fat_call. cbn [map sources]. now rewrite Hcases.
  - now rewrite Hcases.
Qed.

Lemma X5_no_test_cases_witness :
  testCases (with_cases []) = []
  /\ is_subninja android_monolithic = false
  /\ map (@sources) (link_calls (plan (with_cases []) android_monolithic))
     = [ [ "all/main.c";
           "all/android/java/com/maniccoder/obj/test/TestActivity.java" ] ]
  /\ map (@sources) (link_calls (plan (with_cases []) desktop_per_artifact)) = [].
Proof.
  split; [reflexivity|]. split; [reflexivity|]. split.
  - apply (X5_no_test_cases (with_cases []) android_monolithic); reflexivity.
  - apply (X5_no_test_cases (with_cases []) desktop_per_artifact); reflexivity.
Defined.

Lemma NoDup_map_inj_on {A B} (f : A -> B) (l : list A) :
  (forall x y, In x l -> In y l -> f x = f y -> x = y) ->
  NoDup l -> NoDup (map f l).
Proof.
  intros Hinj Hl. induction Hl as [|a l Ha Hl IH]; [constructor|].
  cbn [map]. constructor.
  - intros Hin. apply in_map_iff in Hin. destruct Hin as [x [Hx Hxl]].
    apply Hinj in Hx; [subst; contradiction | now right | now left].
  - apply IH. intros x y Hx Hy. apply Hinj; now right.
Qed.

(** X6.  When the test cases are pairwise distinct, no two test artifacts
    of a plan share a binary name. *)
Theorem X6_binary_names_distinct :
  forall m g,
    NoDup (testCases m) ->
    NoDup (map (@binname) (link_calls (plan m g))).
Proof.
  intros m g Hnd. rewrite link_calls_plan.
  destruct (is_subninja g); [constructor|].
  destruct (fat_binary g).
  - repeat constructor. intros [].
  - rewrite map_map. apply NoDup_map_inj_on; [|exact Hnd].
    intros x y _ _ H. unfold test_call in H.
    destruct (is_macos (target g)); cbn [binname test_app_call test_bin_call] in H;
      now injection H.
Qed.

Lemma X6_binary_names_distinct_witness :
  NoDup (testCases (with_cases ["obj"; "mesh"]))
  /\ NoDup (map (@binname)
              (link_calls (plan (with_cases ["obj"; "mesh"]) desktop_per_artifact))).
Proof.
  assert (H : NoDup (testCases (with_cases ["obj"; "mesh"]))).
  { constructor; [intros [E|[]]; discriminate E|].
    constructor; [intros []|constructor]. }
  split; [exact H|].
  apply (X6_binary_names_distinct (with_cases ["obj"; "mesh"]) desktop_per_artifact H).
Defined.

(** X7.  On iOS, Android and Tizen the toolchain's answer to
    [is_monolithic()] has no effect: the outcome and the plan are the same
    for both answers. *)
Theorem X7_monolithic_flag_ignored_on_bundle_platforms :
  forall m tgt cfgs subninja incs monolithic1 monolithic2,
    bundle_only tgt = true ->
    run m (mkGenerator tgt (mkToolchain monolithic1 cfgs) subninja incs)
    = run m (mkGenerator tgt (mkToolchain monolithic2 cfgs) subninja incs).
Proof.
  intros m tgt cfgs subninja incs mono1 mono2 Hb.
  rewrite !run_eq. cbn [is_subninja]. f_equal. f_equal.
  destruct subninja; [reflexivity|].
  unfold test_decls, fat_binary. cbn [target toolchain is_monolithic].
  unfold bundle_only in Hb.
  replace (mono1 || is_ios tgt || is_android tgt || is_tizen tgt) with true
    by (destruct mono1, (is_ios tgt), (is_android tgt), (is_tizen tgt);
        simpl in *; congruence).
  replace (mono2 || is_ios tgt || is_android tgt || is_tizen tgt) with true
    by (destruct mono2, (is_ios tgt), (is_android tgt), (is_tizen tgt);
        simpl in *; congruence).
  reflexivity.
Qed.

Lemma X7_monolithic_flag_ignored_on_bundle_platforms_witness :
  bundle_only (target_for Tizen) = true
  /\ run obj_manifest (generator_for Tizen false all_configs false ["test"])
     = run obj_manifest (generator_for Tizen true all_configs false ["test"]).
Proof.
  split; [reflexivity|].
  apply (X7_monolithic_flag_ignored_on_bundle_platforms
           obj_manifest (target_for Tizen) all_configs false ["test"] false true).
  reflexivity.
Defined.

(** X8.  An application bundle is declared without resources in one case
    only: the fat binary of a macOS target.  Every other bundle of every
    plan has a non-empty resource list. *)
Theorem X8_bundle_without_resources :
  forall m g,
    Forall (fun d =>
              match d with
              | App c =>
                  resource_list c <> []
                  \/ (fat_binary g = true /\ is_macos (target g) = true
                      /\ bundle_only (target g) = false)
              | _ => True
              end)
           (plan m g).
Proof.
  intros m g. rewrite plan_eq. constructor; [exact I|].
  destruct (is_subninja g); [constructor|].
  unfold test_decls. destruct (fat_binary g) eqn:Hfat.
  - constructor; [|constructor].
    unfold fat_decl. destruct (app_platform g) eqn:Happ; [|exact I].
    unfold resource_list, fat_call, fat_test_resources. cbn [resources].
    unfold app_platform in Happ. unfold bundle_only.
    destruct (is_macos (target g)), (is_ios (target g)),
      (is_android (target g)), (is_tizen (target g)); simpl in Happ |- *;
      try discriminate Happ;
      try (left; discriminate); right; repeat split.
  - apply Forall_forall. intros d Hd. apply in_map_iff in Hd.
    destruct Hd as [t [<- _]]. unfold test_decl.
    destruct (is_macos (target g)); [|exact I].
    left. discriminate.
Qed.

(** ** The configurations of lines 27-28 *)

(** X9.  When lines 27-28 bind [configs], the target is none of iOS,
    Android and Tizen, and the bound list holds exactly the configurations
    of the toolchain other than ['profile'] and ['deploy']: these two
    never occur in it and nothing else is dropped. *)
Theorem X9_configs_without_profile_and_deploy :
  forall g cs,
    filtered_configs g = Some cs ->
    bundle_only (target g) = false
    /\ ~ In "profile" cs /\ ~ In "deploy" cs
    /\ (forall c, c <> "profile" -> c <> "deploy" ->
                  In c (configs (toolchain g)) -> In c cs)
    /\ incl cs (configs (toolchain g)).
Proof.
  intros g cs H. unfold filtered_configs in H. unfold bundle_only.
  destruct (is_ios (target g)), (is_android (target g)), (is_tizen (target g));
    simpl in H; try discriminate H.
  injection H as <-. split; [reflexivity|].
  repeat split.
  - intros Hin. apply filter_In in Hin. destruct Hin as [_ Hin]. discriminate Hin.
  - intros Hin. apply filter_In in Hin. destruct Hin as [_ Hin]. discriminate Hin.
  - intros c Hp Hd Hin. apply filter_In. split; [exact Hin|].
    unfold not_in. cbn [existsb].
    apply String.eqb_neq in Hp. apply String.eqb_neq in Hd.
    now rewrite Hp, Hd.
  - intros c Hin. apply filter_In in Hin. tauto.
Qed.

Lemma X9_configs_without_profile_and_deploy_witness :
  filtered_configs desktop_per_artifact = Some ["debug"; "release"]
  /\ bundle_only (target desktop_per_artifact) = false
  /\ ~ In "profile" ["debug"; "release"] /\ ~ In "deploy" ["debug"; "release"]
  /\ (forall c, c <> "profile" -> c <> "deploy" ->
                In c (configs (toolchain desktop_per_artifact)) ->
                In c ["debug"; "release"])
  /\ incl ["debug"; "release"] (configs (toolchain desktop_per_artifact)).
Proof.
  split; [reflexivity|].
  apply (X9_configs_without_profile_and_deploy desktop_per_artifact). reflexivity.
Defined.

(** ** Entry points *)

Lemma entry_point_plain (t : string) :
  plain_name t = true -> entry_point t = (t ++ "/main.c")%string.
Proof.
  unfold plain_name, entry_point, PosixPath.join, PosixPath.join_step.
  cbn [fold_left PosixPath.startswith_sep]. intros H.
  apply negb_true_iff in H. rewrite H. reflexivity.
Qed.

Lemma last_ascii_append (s x : string) :
  x <> EmptyString -> last_ascii (s ++ x) = last_ascii x.
Proof.
  intros Hx. induction s as [|c s IH]; [reflexivity|].
  cbn [append last_ascii]. rewrite IH.
  destruct (s ++ x)%string eqn:E; [|reflexivity].
  destruct s; [simpl in E; contradiction | discriminate E].
Qed.

(** Without the condition on the names two test cases can share an entry
    point. *)
Example entry_point_collision : entry_point "obj" = entry_point "obj/".
Proof. reflexivity. Qed.

Lemma entry_point_inj_plain (t1 t2 : string) :
  plain_name t1 = true -> plain_name t2 = true ->
  entry_point t1 = entry_point t2 -> t1 = t2.
Proof.
  intros H1 H2 H.
  rewrite (entry_point_plain t1 H1), (entry_point_plain t2 H2) in H.
  now apply append_cancel_r in H.
Qed.

(** X10.  Test cases with different names have different entry points in
    the fat binary, as long as the names are not empty and do not end in
    a separator. *)
Theorem X10_entry_point_injective :
  forall t1 t2,
    plain_name t1 = true -> plain_name t2 = true ->
    t1 <> t2 -> entry_point t1 <> entry_point t2.
Proof.
  intros t1 t2 H1 H2 Hne H. apply Hne. now apply entry_point_inj_plain.
Qed.

Lemma X10_entry_point_injective_witness :
  plain_name "obj" = true /\ plain_name "mesh" = true
  /\ "obj" <> "mesh"
  /\ entry_point "obj" <> entry_point "mesh".
Proof.
  assert (Hne : "obj" <> "mesh") by discriminate.
  split; [reflexivity|]. split; [reflexivity|]. split; [exact Hne|].
  apply (@X10_entry_point_injective "obj" "mesh" eq_refl eq_refl Hne).
Defined.

Lemma entry_point_not_extra g (t : string) :
  plain_name t = true -> ~ In (entry_point t) (fat_test_extrasources g).
Proof.
  intros Hp Hin. rewrite (entry_point_plain t Hp) in Hin.
  assert (Hc : forall x, In x (fat_test_extrasources g) -> last_ascii x <> "c"%char).
  { unfold fat_test_extrasources.
    destruct (is_ios (target g)); [|destruct (is_android (target g))];
      simpl; intros x Hx;
      repeat (destruct Hx as [<-|Hx]; [vm_compute; discriminate|]);
      destruct Hx. }
  apply Hc in Hin. apply Hin.
  rewrite last_ascii_append; [reflexivity | discriminate].
Qed.

(** A test case named like the reserved case is merged twice. *)
Example fat_sources_duplicate :
  map (@sources) (link_calls (plan (with_cases ["all"]) desktop_monolithic))
  = [ ["all/main.c"; "all/main.c"] ].
Proof. reflexivity. Qed.

(** X11.  No test artifact lists a source file twice when the test cases
    are pairwise distinct, none of them is the reserved case [all], and
    their names are not empty and do not end in a separator. *)
Theorem X11_sources_distinct :
  forall m g,
    NoDup (testCases m) ->
    ~ In "all" (testCases m) ->
    forallb plain_name (testCases m) = true ->
    Forall (fun c => NoDup (sources c)) (link_calls (plan m g)).
Proof.
  intros m g Hnd Hall Hplain. rewrite link_calls_plan.
  destruct (is_subninja g); [constructor|].
  destruct (fat_binary g).
  - constructor; [|constructor]. unfold fat_call. cbn [sources].
    assert (Hp : forall t, In t (testCases m ++ ["all"]) -> plain_name t = true).
    { intros t Ht. apply in_app_or in Ht. destruct Ht as [Ht|[<-|[]]]; [|reflexivity].
      rewrite forallb_forall in Hplain. now apply Hplain. }
    apply NoDup_app.
    + apply NoDup_map_inj_on.
      * intros x y Hx Hy. apply entry_point_inj_plain; now apply Hp.
      * apply NoDup_app; [exact Hnd | repeat constructor; intros [] |].
        intros a Ha [<-|[]]. contradiction.
    + unfold fat_test_extrasources.
      destruct (is_ios (target g)); [|destruct (is_android (target g))];
        simpl; repeat constructor; intros [].
    + intros s Hs. apply in_map_iff in Hs. destruct Hs as [t [<- Ht]].
      apply (entry_point_not_extra g). now apply Hp.
  - apply Forall_forall. intros c Hc. apply in_map_iff in Hc.
    destruct Hc as [t [<- _]]. unfold test_call.
    destruct (is_macos (target g)); cbn [sources test_app_call test_bin_call];
      repeat constructor; intros [].
Qed.

Lemma X11_sources_distinct_witness :
  NoDup (testCases obj_manifest)
  /\ ~ In "all" (testCases obj_manifest)
  /\ forallb plain_name (testCases obj_manifest) = true
  /\ Forall (fun c => NoDup (sources c)) (link_calls (plan obj_manifest android_monolithic)).
Proof.
  assert (H1 : NoDup (testCases obj_manifest))
    by (constructor; [intros [] | constructor]).
  assert (H2 : ~ In "all" (testCases obj_manifest))
    by (intros [E|[]]; discriminate E).
  split; [exact H1|]. split; [exact H2|]. split; [reflexivity|].
  apply (@X11_sources_distinct obj_manifest android_monolithic H1 H2 eq_refl).
Defined.

(** ** The call of line 67 *)

(** X12.  No run declares the combined binary of line 67, on any platform
    and with any toolchain: the guard of line 66 tests the method object
    [generator.is_subninja], which is true in every run, so the guarded
    call is never made. *)
Theorem X12_line_67_never_declared :
  forall m g,
    ~ In (Bin (all_call m (obj_lib m) (test_includepaths g))) (plan m g).
Proof.
  intros m g. rewrite plan_eq. intros [H|H]; [discriminate H|].
  destruct (is_subninja g); [destruct H|].
  unfold test_decls in H. destruct (fat_binary g).
  - destruct H as [H|[]]. unfold fat_decl in H.
    destruct (app_platform g); [discriminate H|].
    assert (E : module_ (fat_call m g (obj_lib m) (test_includepaths g))
                = module_ (all_call m (obj_lib m) (test_includepaths g)))
      by congruence.
    discriminate E.
  - apply in_map_iff in H. destruct H as [t [H _]]. unfold test_decl in H.
    destruct (is_macos (target g)); [discriminate H|].
    assert (E : libs (all_call m (obj_lib m) (test_includepaths g))
                = libs (test_bin_call m (obj_lib m) (test_includepaths g) t))
      by congruence.
    now apply all_call_link_list in E.
Qed.

(** X13.  Whenever a stand-alone build takes the fat-binary branch, be it
    for a monolithic toolchain or for a bundle platform, its one test
    artifact is named [test-all] and is declared with the empty module
    name, so that its sources are addressed from the base path. *)
Theorem X13_fat_binary_name :
  forall m g,
    is_subninja g = false ->
    fat_binary g = true ->
    map (fun c => (module_ c, binname c)) (link_calls (plan m g)) = [("", "test-all")].
Proof.
  intros m g Hsub Hfat. now rewrite link_calls_plan, Hsub, Hfat.
Qed.

Lemma X13_fat_binary_name_witness :
  is_subninja macos_monolithic = false
  /\ fat_binary macos_monolithic = true
  /\ map (fun c => (module_ c, binname c)) (link_calls (plan obj_manifest macos_monolithic))
     = [("", "test-all")].
Proof.
  split; [reflexivity|]. split; [reflexivity|].
  apply (@X13_fat_binary_name obj_manifest macos_monolithic); reflexivity.
Defined.
